(** * Nullable: a generic optional value with JSON, YAML and database adapters

    A shallow embedding of [nullable.go] (package [nullable]) and the proofs
    of the properties stated about it.

    Layout of the development:
    - [GoRuntime]: the part of the Go runtime the package relies on
      (interface values, [reflect] kinds and types, errors, [int64]
      conversion);
    - [NullablePkg]: the package itself, function by function;
    - [Instances]: concrete payload types ([int], [uint], [uint8],
      [uint64], [string], [*bool], [any], and the [TestStruct] of the test
      file) and the program of the test file;
    - [NullableSpec]: the properties. *)

From Stdlib Require Import ZArith Bool List String Ascii Lia.
From Stdlib Require Import Strings.Byte DecimalString.
From ExtLib Require Import Structures.Monad Structures.MonadState.
From ExtLib Require Import Data.Monads.StateMonad.
Import ListNotations.
Import MonadNotation.
Local Open Scope monad_scope.
Local Open Scope string_scope.
Local Open Scope Z_scope.
Set Warnings "-register-all".

(* ===================================================================== *)
(** ** The Go runtime, as far as the package uses it *)
(* ===================================================================== *)

Module GoRuntime.

(** [reflect.Kind], in the order of the [reflect] package. *)
Inductive Kind : Type :=
  | Invalid | Bool
  | Int | Int8 | Int16 | Int32 | Int64
  | Uint | Uint8 | Uint16 | Uint32 | Uint64 | Uintptr
  | Float32 | Float64 | Complex64 | Complex128
  | Array | Chan | Func | Interface | Map | Pointer | Slice
  | String | Struct | UnsafePointer.

Definition Kind_eq_dec (a b : Kind) : {a = b} + {a <> b}.
Proof. decide equality. Defined.

(** [reflect.Type]: the identity of a Go type.  Two unnamed types are
    identical when they are built the same way; a defined type is identical
    only to itself (package path and name).  Struct, array, map, channel,
    function and interface types are identified by their printed form. *)
Inductive rtype : Type :=
  | Basic (k : Kind)                          (* bool, int, ..., string *)
  | Defined (pkg name : string) (underlying : rtype)
  | PointerTo (elem : rtype)
  | SliceOf (elem : rtype)
  | Composite (k : Kind) (descr : string).

Definition rtype_eq_dec (a b : rtype) : {a = b} + {a <> b}.
Proof. decide equality; first [apply string_dec | apply Kind_eq_dec]. Defined.

(** [t.Kind()] *)
Fixpoint Type_Kind (t : rtype) : Kind :=
  match t with
  | Basic k => k
  | Defined _ _ u => Type_Kind u
  | PointerTo _ => Pointer
  | SliceOf _ => Slice
  | Composite k _ => k
  end.

(** [t.Elem()] for pointers and slices. *)
Definition Type_Elem (t : rtype) : rtype :=
  let fix under (t : rtype) : rtype :=
    match t with
    | Defined _ _ u => under u
    | _ => t
    end in
  match under t with
  | PointerTo e => e
  | SliceOf e => e
  | other => other
  end.

(** What [reflect.Value] reads out of a value.  Integers are kept as
    mathematical integers ([rv.Int()] and [rv.Uint()] return 64-bit values),
    floats as their IEEE-754 binary64 bit pattern ([rv.Float()] widens a
    [float32] exactly).  A pointer holds [None] when it is nil and otherwise
    the interface value [rv.Elem().Interface()] of its target. *)
Inductive rvalue : Type :=
  | VBool (b : bool)
  | VInt (i : Z)
  | VUint (u : Z)
  | VFloat (bits : Z)
  | VString (s : string)
  | VPointer (target : option (option (rtype * rvalue)))
  | VSlice (elems : list rvalue)
  | VStruct (fields : list rvalue)
  | VOther.

(** A non-nil interface value: dynamic type and value. *)
Definition dyn : Type := (rtype * rvalue)%type.
Definition dtype (d : dyn) : rtype := fst d.
Definition dval (d : dyn) : rvalue := snd d.

(** [any] (and [driver.Value], which is [any]): nil, or a dynamic value. *)
Definition any : Type := option dyn.

(** [reflect.TypeOf(x)]: nil for the nil interface. *)
Definition reflect_TypeOf (x : any) : option rtype := option_map dtype x.

(** Comparison [==] of two [reflect.Type] values. *)
Definition Type_eqb (a b : option rtype) : bool :=
  match a, b with
  | None, None => true
  | Some s, Some t => if rtype_eq_dec s t then true else false
  | _, _ => false
  end.

(** Arguments of the [fmt.Errorf] calls of the package, kept unrendered. *)
Inductive fmt_arg : Type :=
  | ArgKind (k : Kind)            (* %s of a reflect.Kind *)
  | ArgType (t : rtype)           (* %s of a reflect.Type *)
  | ArgTypeOf (x : any).          (* %T of a value *)

(** Error values. *)
Inductive err : Type :=
  | ErrUnsupportedConversion                    (* the package's sentinel *)
  | Errorf (format : string) (args : list fmt_arg)
  | Foreign (origin : string) (msg : string).   (* raised outside the package *)

(** The [error] interface: [None] is nil. *)
Definition error : Type := option err.
Definition no_error : error := None.

(** [int64(u)] for a [uint64] [u]: the same 64 bits read as two's
    complement. *)
Definition to_int64 (u : Z) : Z := (u + 2 ^ 63) mod 2 ^ 64 - 2 ^ 63.

(** [time.Time] *)
Definition time_Time : rtype :=
  Defined "time" "Time" (Composite Struct "struct { wall uint64; ext int64; loc *time.Location }").

(** Predeclared types used for the results of [reflect.Value] accessors. *)
Definition t_int64 : rtype := Basic Int64.
Definition t_float64 : rtype := Basic Float64.
Definition t_bool : rtype := Basic Bool.
Definition t_string : rtype := Basic String.
Definition t_bytes : rtype := SliceOf (Basic Uint8).

(** [reflect.Value] accessors.  Each one panics in Go on a value of another
    kind; the package calls them only under the matching [case], so the
    fall-through results below are never used on values of the right kind. *)
Definition Value_Int (v : rvalue) : Z := match v with VInt i => i | _ => 0 end.
Definition Value_Uint (v : rvalue) : Z := match v with VUint u => u | _ => 0 end.
Definition Value_Float (v : rvalue) : Z := match v with VFloat f => f | _ => 0 end.
Definition Value_Bool (v : rvalue) : bool := match v with VBool b => b | _ => false end.
Definition Value_String (v : rvalue) : string := match v with VString s => s | _ => "" end.
Definition Value_Bytes (v : rvalue) : rvalue := match v with VSlice l => VSlice l | _ => VSlice [] end.

(** Width in bits of an unsigned integer kind on a platform whose [uint] has
    [uintSize] bits ([bits.UintSize], 32 or 64). *)
Definition uint_bits (uintSize : Z) (k : Kind) : Z :=
  match k with
  | Uint8 => 8 | Uint16 => 16 | Uint32 => 32 | Uint64 => 64
  | Uint => uintSize
  | _ => 0
  end.

(** The kinds of [uint], [uint8], [uint16], [uint32] and [uint64];
    [uintptr] has a kind of its own, which the package does not convert. *)
Definition is_uint_kind (k : Kind) : bool :=
  match k with
  | Uint | Uint8 | Uint16 | Uint32 | Uint64 => true
  | _ => false
  end.

(** [d] is a value of an unsigned integer type of the platform. *)
Definition is_uint_value (uintSize : Z) (d : dyn) (u : Z) : Prop :=
  is_uint_kind (Type_Kind (dtype d)) = true /\
  dval d = VUint u /\
  0 <= u < 2 ^ uint_bits uintSize (Type_Kind (dtype d)).

(** [driver.IsValue]: nil, or a value of type [int64], [float64], [bool],
    [[]byte], [string] or [time.Time] (with the content of that type). *)
Definition driver_IsValue (x : any) : bool :=
  match x with
  | None => true
  | Some (t, v) =>
      if rtype_eq_dec t t_int64 then match v with VInt _ => true | _ => false end
      else if rtype_eq_dec t t_float64 then match v with VFloat _ => true | _ => false end
      else if rtype_eq_dec t t_bool then match v with VBool _ => true | _ => false end
      else if rtype_eq_dec t t_bytes then match v with VSlice _ => true | _ => false end
      else if rtype_eq_dec t t_string then match v with VString _ => true | _ => false end
      else if rtype_eq_dec t time_Time then true
      else false
  end.

(** [&...&d]: [d] behind [n] non-nil pointers. *)
Fixpoint pointer_chain (n : nat) (d : dyn) : dyn :=
  match n with
  | O => d
  | S k => (PointerTo (dtype (pointer_chain k d)),
            VPointer (Some (Some (pointer_chain k d))))
  end.

(** The kinds that no [case] of a switch over the integer, float, bool,
    pointer, slice, string and struct kinds names. *)
Definition other_kind (k : Kind) : bool :=
  match k with
  | Invalid | Uintptr | Complex64 | Complex128 | Array | Chan | Func
  | Interface | Map | UnsafePointer => true
  | _ => false
  end.

End GoRuntime.

(* ===================================================================== *)
(** ** The package *)
(* ===================================================================== *)

Module NullablePkg.
Import GoRuntime.

(** What the rest of the program and the standard library contribute:
    - [driverValuer t] is the [Value() (driver.Value, error)] method of the
      type [t], when [t] implements [driver.Valuer];
    - [json_Marshal_dyn d] is [json.Marshal(x)] for a non-nil [x] holding
      [d]. *)
Class Program : Type := {
  driverValuer : rtype -> option (rvalue -> any * error);
  json_Marshal_dyn : dyn -> list byte * error
}.

(** [json.Marshal(x)]: the nil interface encodes as the token [null]. *)
Definition json_Marshal `{Program} (x : any) : list byte * error :=
  match x with
  | None => (list_byte_of_string "null", no_error)
  | Some d => json_Marshal_dyn d
  end.

(** A type argument [T] of [Nullable[T any]]: the Rocq type of its values
    together with what the Go runtime knows about [T]. *)
Class GoType (T : Type) : Type := {
  typeT : rtype;                       (* T itself *)
  zero : T;                            (* var zero T *)
  toAny : T -> any;                    (* the conversion any(v) *)
  assertT : any -> option T;           (* v, ok := x.(T) *)
  (* the Scan method of *T when *T implements sql.Scanner: from the target
     and the driver value to the updated target and the error *)
  ptrScanner : option (T -> any -> T * error)
}.

(** [json.Unmarshal(data, &value)] for a [value] of type [T]: from the bytes
    and the target to the updated target and the error. *)
Class JSONDecoder (T : Type) : Type := {
  json_Unmarshal : list byte -> T -> T * error
}.

(** Facts of the Go language about conversion to an interface and type
    assertion. *)
Class GoTypeLaws (T : Type) `{GoType T} : Prop := {
  (* a value of a non-interface type T boxed in an interface has dynamic
     type T *)
  toAny_concrete :
    Type_Kind typeT <> Interface ->
    forall v : T, reflect_TypeOf (toAny v) = Some typeT;
  (* the zero value of an interface type is the nil interface *)
  toAny_zero_interface :
    Type_Kind typeT = Interface -> toAny zero = None;
  (* asserting T on an interface that holds a T gives that T back *)
  assert_toAny :
    forall v : T, toAny v <> None -> assertT (toAny v) = Some v
}.

(** [type Nullable[T any] struct { value T; valid bool }] *)
Record Nullable (T : Type) : Type := mkNullable { value : T; valid : bool }.
Arguments mkNullable {T} _ _.
Arguments value {T} _.
Arguments valid {T} _.

(** A method: its receiver kind, as declared, and its body as a computation
    over the receiver variable [n]. *)
Inductive receiver : Type :=
  | ByValue      (* func (n Nullable[T]) ... *)
  | ByPointer.   (* func (n *Nullable[T]) ... *)

Record method (T A : Type) : Type :=
  mkMethod { recv : receiver; body : state (Nullable T) A }.
Arguments mkMethod {T A} _ _.
Arguments recv {T A} _.
Arguments body {T A} _.

(** [x.m(...)] on an instance [x]: the result and [x] after the call.  A
    pointer receiver runs the body on [x] itself, a value receiver on a copy
    that is dropped when the method returns. *)
Definition call {T A : Type} (m : method T A) (x : Nullable T) : A * Nullable T :=
  match recv m with
  | ByPointer => runState (body m) x
  | ByValue => (evalState (body m) x, x)
  end.

Section Package.
Context `{prog : Program}.
Context {T : Type} `{goT : GoType T} `{jsonT : JSONDecoder T}.

(** Reads and assignments of the two fields of the receiver. *)
Definition load_value : state (Nullable T) T := gets value.
Definition load_valid : state (Nullable T) bool := gets valid.
Definition store_value (v : T) : state (Nullable T) unit :=
  n <- get ;; put {| value := v; valid := valid n |}.
Definition store_valid (b : bool) : state (Nullable T) unit :=
  n <- get ;; put {| value := value n; valid := b |}.

(** [zeroValue[T]()]: [var zero T; return zero] *)
Definition zeroValue : T := zero.

(** [FromValue] *)
Definition FromValue (value : T) : Nullable T :=
  {| value := value; valid := true |}.

(** [Null]: the composite literal [Nullable[T]{valid: false}] leaves
    [value] at the zero value of [T]. *)
Definition Null : Nullable T :=
  {| value := zero; valid := false |}.

(** [FromPointer]; a [*T] is nil or points to a [T]. *)
Definition FromPointer (value : option T) : Nullable T :=
  match value with
  | None => {| value := zero; valid := false |}
  | Some pointee => {| value := pointee; valid := true |}
  end.

(** [OrElse] *)
Definition OrElse (defaultVal : T) : method T T :=
  mkMethod ByValue
    (ok <- load_valid ;;
     if ok : bool then load_value else ret defaultVal).

(** [GetValue] *)
Definition GetValue : method T T :=
  mkMethod ByValue load_value.

(** [IsNull] *)
Definition IsNull : method T bool :=
  mkMethod ByValue (ok <- load_valid ;; ret (negb ok)).

(** [HasValue] *)
Definition HasValue : method T bool :=
  mkMethod ByValue load_valid.

(** [convertToDriverValue], on a non-nil interface value of dynamic type
    [t].  The recursive call of the source, on
    [rv.Elem().Interface()], is on the target kept in the pointer; when that
    target is a nil interface the call is [convertToDriverValue(nil)], which
    is not a [driver.Valuer], has kind [Invalid] and ends in the default
    case. *)
Fixpoint convertToDriverValue_dyn (t : rtype) (v : rvalue) {struct v} : any * error :=
  match driverValuer t with
  | Some valuer_Value => valuer_Value v
  | None =>
    match Type_Kind t with
    | Pointer =>
        match v with
        | VPointer (Some (Some (t', v'))) => convertToDriverValue_dyn t' v'
        | VPointer (Some None) =>
            (None, Some (Errorf "unsupported type: %T" [ArgTypeOf None]))
        | _ => (None, no_error)                           (* rv.IsNil() *)
        end
    | Int | Int8 | Int16 | Int32 | Int64 =>
        (Some (t_int64, VInt (Value_Int v)), no_error)
    | Uint | Uint8 | Uint16 | Uint32 =>
        (Some (t_int64, VInt (to_int64 (Value_Uint v))), no_error)
    | Uint64 =>
        let u64 := Value_Uint v in
        if u64 >=? 2 ^ 63 then
          (None, Some (Errorf "uint64 values with high bit set are not supported" []))
        else (Some (t_int64, VInt (to_int64 u64)), no_error)
    | Float32 | Float64 =>
        (Some (t_float64, VFloat (Value_Float v)), no_error)
    | Bool =>
        (Some (t_bool, VBool (Value_Bool v)), no_error)
    | Slice =>
        if Kind_eq_dec (Type_Kind (Type_Elem t)) Uint8 then
          (Some (t_bytes, Value_Bytes v), no_error)
        else
          (None, Some (Errorf "unsupported slice type: %s" [ArgKind (Type_Kind (Type_Elem t))]))
    | String =>
        (Some (t_string, VString (Value_String v)), no_error)
    | Struct =>
        if rtype_eq_dec t time_Time then (Some (t, v), no_error)
        else (None, Some (Errorf "unsupported struct type: %s" [ArgType t]))
    | _ =>
        (None, Some (Errorf "unsupported type: %T" [ArgTypeOf (Some (t, v))]))
    end
  end.

(** [convertToDriverValue] *)
Definition convertToDriverValue (v : any) : any * error :=
  match v with
  | None => (None, Some (Errorf "unsupported type: %T" [ArgTypeOf None]))
  | Some (t, rv) => convertToDriverValue_dyn t rv
  end.

(** [convertToType]; the assertion [value.(T)] is reached only when the
    dynamic type of [value] is the type of [zero], where it cannot panic. *)
Definition convertToType (value : any) : T * error :=
  match value with
  | None => (zero, no_error)
  | Some _ =>
      let valueType := reflect_TypeOf value in
      let targetType := reflect_TypeOf (toAny zero) in
      if Type_eqb valueType targetType then
        match assertT value with
        | Some v => (v, no_error)
        | None => (zero, no_error)       (* a panic in Go; not reachable *)
        end
      else (zero, Some ErrUnsupportedConversion)
  end.

(** [Scan] *)
Definition Scan (x : any) : method T error :=
  mkMethod ByPointer
    match x with
    | None =>
        store_value zeroValue ;;
        store_valid false ;;
        ret no_error
    | Some _ =>
        match ptrScanner with
        | Some scanner_Scan =>
            (* scanner is &n.value: its Scan writes into the field *)
            cur <- load_value ;;
            let '(cur', err) := scanner_Scan cur x in
            store_value cur' ;;
            match err with
            | Some _ => store_valid false ;; ret err
            | None => store_valid true ;; ret no_error
            end
        | None =>
            let '(v, err) := convertToType x in
            store_value v ;;
            match err with
            | Some _ => store_valid false ;; ret err
            | None => store_valid true ;; ret no_error
            end
        end
    end.

(** [Value], of [driver.Valuer]. *)
Definition Value : method T (any * error) :=
  mkMethod ByValue
    (ok <- load_valid ;;
     if negb ok then ret (None, no_error)
     else
       v <- load_value ;;
       match toAny v with
       | Some (t, rv) =>
           match driverValuer t with
           | Some valuer_Value => ret (valuer_Value rv)
           | None => ret (convertToDriverValue (toAny v))
           end
       | None => ret (convertToDriverValue (toAny v))
       end).

(** [UnmarshalJSON] *)
Definition UnmarshalJSON (data : list byte) : method T error :=
  mkMethod ByPointer
    (if String.eqb (string_of_list_byte data) "null" then
       store_valid false ;;
       store_value zeroValue ;;
       ret no_error
     else
       let value := zero in                            (* var value T *)
       let '(value, err) := json_Unmarshal data value in
       match err with
       | Some _ => store_valid false ;; ret err
       | None =>
           store_value value ;;
           store_valid true ;;
           ret no_error
       end).

(** [MarshalJSON] *)
Definition MarshalJSON : method T (list byte * error) :=
  mkMethod ByValue
    (ok <- load_valid ;;
     if negb ok then ret (json_Marshal None)
     else v <- load_value ;; ret (json_Marshal (toAny v))).

(** [UnmarshalYAML].  The callback receives [&value], where [value] is a
    nil [*T]: it is a function from the content of [value] before the call
    to its content after the call and the error. *)
Definition UnmarshalYAML (unmarshal : option T -> option T * error) : method T error :=
  mkMethod ByPointer
    (let value := None in                               (* var value *T *)
     let '(value, err) := unmarshal value in
     match err with
     | Some _ => store_valid false ;; ret err
     | None =>
         match value with
         | None => store_valid false ;; store_value zeroValue
         | Some pointee => store_value pointee ;; store_valid true
         end ;;
         ret no_error
     end).

(** [MarshalYAML] *)
Definition MarshalYAML : method T (any * error) :=
  mkMethod ByValue
    (ok <- load_valid ;;
     if negb ok then ret (None, no_error)
     else v <- load_value ;; ret (toAny v, no_error)).

(** Encoding [x] with [MarshalJSON] and decoding the bytes with
    [UnmarshalJSON] into an instance [n0]: the error and [n0] afterwards. *)
Definition json_round_trip (x n0 : Nullable T) : error * Nullable T :=
  let '(data, err) := fst (call MarshalJSON x) in
  match err with
  | Some _ => (err, n0)
  | None => call (UnmarshalJSON data) n0
  end.

(** The bytes [json.Marshal] produces for a payload. *)
Definition json_token (v : T) : list byte := fst (json_Marshal (toAny v)).

(** [T] round-trips under [encoding/json]: every payload is encoded without
    error, and decoding the bytes into a fresh variable gives it back. *)
Definition codec_round_trips : Prop :=
  forall v : T,
    snd (json_Marshal (toAny v)) = no_error /\
    json_Unmarshal (json_token v) zero = (v, no_error).

(** [var n Nullable[T]]: the zero value of the struct, each field at the
    zero value of its type. *)
Definition zero_Nullable : Nullable T :=
  let zero_bool := false in
  {| value := zero; valid := zero_bool |}.

(** A method that cannot change the instance it is called on: it is declared
    with a value receiver, so the caller's instance is as before, and its
    body assigns neither field of its own copy. *)
Definition read_only {A : Type} (m : method T A) : Prop :=
  recv m = ByValue /\
  forall x : Nullable T, snd (call m x) = x /\ execState (body m) x = x.

(** The state the constructors build: an absent instance holds the zero
    value of [T]. *)
Definition absent_is_zero (n : Nullable T) : Prop :=
  valid n = false -> value n = zero.


End Package.
End NullablePkg.

(* ===================================================================== *)
(** ** Concrete payload types and a concrete program *)
(* ===================================================================== *)

Module Instances.
Import GoRuntime NullablePkg.

Definition bytes (s : string) : list byte := list_byte_of_string s.

(** The bytes of a JSON string literal without escapes: [s] between two
    double quotes (byte 0x22). *)
Definition quoted (s : string) : list byte := (x22 :: bytes s ++ [x22])%list.

(** *** The fragment of [encoding/json] used below: booleans, integers and
    pointers to them, on input without surrounding white space. *)

Definition json_error (msg : string) : error := Some (Foreign "encoding/json" msg).

Definition is_digit (c : ascii) : bool :=
  let n := Z.of_nat (nat_of_ascii c) in (48 <=? n) && (n <=? 57).

Fixpoint parse_digits (s : string) (acc : Z) : option Z :=
  match s with
  | EmptyString => Some acc
  | String.String c rest =>
      if is_digit c
      then parse_digits rest (10 * acc + (Z.of_nat (nat_of_ascii c) - 48))
      else None
  end.

(** A JSON number without fraction and exponent: an optional minus sign,
    then either the single digit 0 or digits that do not start with 0. *)
Definition parse_json_integer (s : string) : option Z :=
  let unsigned (s : string) : option Z :=
    match s with
    | EmptyString => None
    | String.String "0" EmptyString => Some 0
    | String.String "0" _ => None
    | _ => parse_digits s 0
    end in
  match s with
  | String.String "-" rest => option_map Z.opp (unsigned rest)
  | _ => unsigned s
  end.

(** [json.Unmarshal] into an integer variable with values in [lo, hi): the
    token [null] leaves the target as it is, an integer in range is stored,
    anything else is an error that leaves the target as it is. *)
Definition json_Unmarshal_integer (lo hi : Z) (data : list byte) (target : Z) : Z * error :=
  let s := string_of_list_byte data in
  if String.eqb s "null" then (target, no_error)
  else
    match parse_json_integer s with
    | Some z =>
        if (lo <=? z) && (z <? hi) then (z, no_error)
        else (target, json_error "cannot unmarshal number into Go value (out of range)")
    | None => (target, json_error "cannot unmarshal into Go value of integer type")
    end.

(** [json.Unmarshal] into a [*bool] variable. *)
Definition json_Unmarshal_ptr_bool (data : list byte) (target : option bool)
  : option bool * error :=
  let s := string_of_list_byte data in
  if String.eqb s "null" then (None, no_error)
  else if String.eqb s "true" then (Some true, no_error)
  else if String.eqb s "false" then (Some false, no_error)
  else (target, json_error "cannot unmarshal into Go value of type *bool").

(** [json.Marshal] of a non-nil interface value of this fragment. *)
Fixpoint json_Marshal_fragment (t : rtype) (v : rvalue) {struct v} : list byte * error :=
  match Type_Kind t, v with
  | Bool, VBool b => (bytes (if b then "true" else "false"), no_error)
  | (Int | Int8 | Int16 | Int32 | Int64), VInt i =>
      (bytes (NilZero.string_of_int (Z.to_int i)), no_error)
  | (Uint | Uint8 | Uint16 | Uint32 | Uint64), VUint u =>
      (bytes (NilZero.string_of_int (Z.to_int u)), no_error)
  | Pointer, VPointer (Some (Some (t', v'))) => json_Marshal_fragment t' v'
  | Pointer, VPointer _ => (bytes "null", no_error)
  | _, _ => ([], json_error "value outside the modelled fragment")
  end.

(** *** Payload types *)

(** [int], on a 64-bit platform. *)
Definition t_int : rtype := Basic Int.
Definition GoType_int : GoType Z := {|
  typeT := t_int;
  zero := 0;
  toAny := fun v => Some (t_int, VInt v);
  assertT := fun x =>
    match x with
    | Some (t, VInt i) => if rtype_eq_dec t t_int then Some i else None
    | _ => None
    end;
  ptrScanner := None
|}.
Definition JSON_int : JSONDecoder Z :=
  {| json_Unmarshal := json_Unmarshal_integer (- 2 ^ 63) (2 ^ 63) |}.

(** [uint], on a 64-bit platform. *)
Definition t_uint : rtype := Basic Uint.
Definition GoType_uint : GoType Z := {|
  typeT := t_uint;
  zero := 0;
  toAny := fun v => Some (t_uint, VUint v);
  assertT := fun x =>
    match x with
    | Some (t, VUint u) => if rtype_eq_dec t t_uint then Some u else None
    | _ => None
    end;
  ptrScanner := None
|}.

(** [uint64] *)
Definition t_uint64 : rtype := Basic Uint64.
Definition GoType_uint64 : GoType Z := {|
  typeT := t_uint64;
  zero := 0;
  toAny := fun v => Some (t_uint64, VUint v);
  assertT := fun x =>
    match x with
    | Some (t, VUint u) => if rtype_eq_dec t t_uint64 then Some u else None
    | _ => None
    end;
  ptrScanner := None
|}.

(** [uint8] *)
Definition t_uint8 : rtype := Basic Uint8.
Definition GoType_uint8 : GoType Z := {|
  typeT := t_uint8;
  zero := 0;
  toAny := fun v => Some (t_uint8, VUint v);
  assertT := fun x =>
    match x with
    | Some (t, VUint u) => if rtype_eq_dec t t_uint8 then Some u else None
    | _ => None
    end;
  ptrScanner := None
|}.

(** [string] *)
Definition GoType_string : GoType string := {|
  typeT := t_string;
  zero := "";
  toAny := fun v => Some (t_string, VString v);
  assertT := fun x =>
    match x with
    | Some (t, VString s) => if rtype_eq_dec t t_string then Some s else None
    | _ => None
    end;
  ptrScanner := None
|}.

(** [*bool] *)
Definition t_ptr_bool : rtype := PointerTo t_bool.
Definition GoType_ptr_bool : GoType (option bool) := {|
  typeT := t_ptr_bool;
  zero := None;
  toAny := fun p =>
    Some (t_ptr_bool, VPointer (option_map (fun b => Some (t_bool, VBool b)) p));
  assertT := fun x =>
    match x with
    | Some (t, VPointer None) =>
        if rtype_eq_dec t t_ptr_bool then Some None else None
    | Some (t, VPointer (Some (Some (_, VBool b)))) =>
        if rtype_eq_dec t t_ptr_bool then Some (Some b) else None
    | _ => None
    end;
  ptrScanner := None
|}.
Definition JSON_ptr_bool : JSONDecoder (option bool) :=
  {| json_Unmarshal := json_Unmarshal_ptr_bool |}.

(** [any]: an interface type; its values are interface values. *)
Definition t_any : rtype := Composite Interface "interface {}".
Definition GoType_any : GoType any := {|
  typeT := t_any;
  zero := None;
  toAny := fun x => x;
  assertT := fun x => match x with Some _ => Some x | None => None end;
  ptrScanner := None
|}.

(** [TestStruct] of the test file: [struct { Field string }], with a [Scan]
    method on [*TestStruct] and a [Value] method on [TestStruct]. *)
Definition t_TestStruct : rtype :=
  Defined "nullable" "TestStruct" (Composite Struct "struct { Field string }").

Definition TestStruct_Scan (t : string) (value : any) : string * error :=
  match value with
  | Some (ty, VString str) =>
      if rtype_eq_dec ty t_string then (str, no_error)
      else (t, Some (Foreign "nullable_test" "failed to scan TestStruct"))
  | _ => (t, Some (Foreign "nullable_test" "failed to scan TestStruct"))
  end.

Definition TestStruct_Value (v : rvalue) : any * error :=
  match v with
  | VStruct [VString Field] => (Some (t_string, VString Field), no_error)
  | _ => (Some (t_string, VString ""), no_error)
  end.

Definition GoType_TestStruct : GoType string := {|
  typeT := t_TestStruct;
  zero := "";
  toAny := fun Field => Some (t_TestStruct, VStruct [VString Field]);
  assertT := fun x =>
    match x with
    | Some (t, VStruct [VString Field]) =>
        if rtype_eq_dec t t_TestStruct then Some Field else None
    | _ => None
    end;
  ptrScanner := Some TestStruct_Scan
|}.

(** The program of the test file: [TestStruct] is the only
    [driver.Valuer]. *)
Definition test_program : Program := {|
  driverValuer := fun t =>
    if rtype_eq_dec t t_TestStruct then Some TestStruct_Value else None;
  json_Marshal_dyn := fun d => json_Marshal_fragment (dtype d) (dval d)
|}.

(** The callback [yaml.v3] passes to [UnmarshalYAML] for a scalar that does
    not fit [int]: it reports the error and leaves its target as it is. *)
Definition yaml_unmarshal_failing (value : option Z) : option Z * error :=
  (value, Some (Foreign "yaml" "cannot unmarshal !!str into int")).

(** [type Unsupported struct { A int }] of the test file, and its value
    [Unsupported{A: 1}]. *)
Definition t_Unsupported : rtype :=
  Defined "nullable" "Unsupported" (Composite Struct "struct { A int }").
Definition GoType_Unsupported : GoType Z := {|
  typeT := t_Unsupported;
  zero := 0;
  toAny := fun A => Some (t_Unsupported, VStruct [VInt A]);
  assertT := fun x =>
    match x with
    | Some (t, VStruct [VInt A]) =>
        if rtype_eq_dec t t_Unsupported then Some A else None
    | _ => None
    end;
  ptrScanner := None
|}.

(** The [float64] constant [3.14], as the tests scan it. *)
Definition float64_3_14 : any := Some (t_float64, VFloat 0x40091EB851EB851F).

End Instances.

(* ===================================================================== *)
(** ** Properties *)
(* ===================================================================== *)

Module NullableSpec.
Import GoRuntime NullablePkg Instances.

Section Generic.
Context `{prog : Program}.
Context {T : Type} `{goT : GoType T}.

(** *** Constructors *)

Lemma FromValue_spec (v : T) :
  fst (call HasValue (FromValue v)) = true /\
  fst (call GetValue (FromValue v)) = v.
Proof. split; reflexivity. Qed.

Lemma Null_spec :
  fst (call IsNull Null) = true /\ fst (call GetValue Null) = zero.
Proof. split; reflexivity. Qed.

Lemma FromPointer_spec (p : option T) :
  FromPointer p = match p with None => Null | Some v => FromValue v end.
Proof. destruct p; reflexivity. Qed.

(** *** Inspection *)

(** C7. [OrElse(d)] returns the payload of a present instance and ignores
    [d], returns exactly [d] on an absent instance, and leaves the instance
    as it was. *)
Theorem OrElse_spec (payload d : T) :
  call (OrElse d) {| value := payload; valid := true |}
    = (payload, {| value := payload; valid := true |}) /\
  call (OrElse d) {| value := payload; valid := false |}
    = (d, {| value := payload; valid := false |}).
Proof. split; reflexivity. Qed.

(** *** Database adapters *)

Lemma Scan_of_nil (n : Nullable T) :
  call (Scan None) n = (no_error, Null).
Proof. destruct n; reflexivity. Qed.

(** C5. [Scan(nil)] succeeds for every [T], with or without a [Scan] method
    on [*T], and leaves the instance absent with the zero payload. *)
Theorem Scan_nil (n : Nullable T) :
  fst (call (Scan None) n) = no_error /\
  snd (call (Scan None) n) = {| value := zero; valid := false |}.
Proof. destruct n as [v b]. split; reflexivity. Qed.

(** C6. [Value()] on an absent instance is [(nil, nil)], whatever [T] is and
    whether or not its payload implements [driver.Valuer]. *)
Theorem Value_absent (payload : T) :
  fst (call Value {| value := payload; valid := false |}) = (None, no_error).
Proof. reflexivity. Qed.

(** *** The zero value of the struct *)

(** C9. The zero value of [Nullable[T]] is the instance built by [Null]:
    it is absent, its payload is the zero value of [T], and every method
    gives on it what it gives on [Null]. *)
Theorem zero_Nullable_is_Null :
  zero_Nullable = Null /\
  valid zero_Nullable = false /\
  value zero_Nullable = zero /\
  forall (A : Type) (m : method T A), call m zero_Nullable = call m Null.
Proof. repeat split. Qed.

(** *** The coercion helper *)

Lemma Type_eqb_same (t : rtype) : Type_eqb (Some t) (Some t) = true.
Proof. simpl. destruct (rtype_eq_dec t t); [reflexivity | contradiction]. Qed.

Lemma Type_eqb_differ (s t : rtype) : s <> t -> Type_eqb (Some s) (Some t) = false.
Proof. intros D. simpl. destruct (rtype_eq_dec s t); [contradiction | reflexivity]. Qed.

(** The only error of [convertToType] is the sentinel, and it comes with the
    zero value. *)
Lemma convertToType_error (x : any) (v : T) (e : err) :
  convertToType x = (v, Some e) -> v = zero /\ e = ErrUnsupportedConversion.
Proof.
  unfold convertToType. destruct x as [d|]; [|discriminate].
  destruct (Type_eqb _ _).
  - destruct (assertT (Some d)); discriminate.
  - intros E. inversion E. split; reflexivity.
Qed.

Section WithLaws.
Context `{laws : !GoTypeLaws T}.

Lemma convertToType_same (v : T) :
  Type_Kind typeT <> Interface -> convertToType (toAny v) = (v, no_error).
Proof.
  intros NI. unfold convertToType.
  pose proof (toAny_concrete NI v) as Tv.
  pose proof (toAny_concrete NI zero) as Tz.
  destruct (toAny v) as [d|] eqn:E; [|discriminate].
  rewrite Tz. simpl in Tv. inversion Tv as [Td].
  simpl reflect_TypeOf. rewrite Td, Type_eqb_same.
  rewrite <- E, assert_toAny; [reflexivity | rewrite E; discriminate].
Qed.

Lemma convertToType_other (d : dyn) :
  dtype d <> typeT ->
  convertToType (Some d) = (zero, Some ErrUnsupportedConversion).
Proof.
  intros D. unfold convertToType.
  destruct (Kind_eq_dec (Type_Kind typeT) Interface) as [I|NI].
  - rewrite (toAny_zero_interface I). reflexivity.
  - rewrite (toAny_concrete NI zero). simpl reflect_TypeOf.
    rewrite (Type_eqb_differ _ _ D). reflexivity.
Qed.

Lemma convertToType_interface (d : dyn) :
  Type_Kind typeT = Interface ->
  convertToType (Some d) = (zero, Some ErrUnsupportedConversion).
Proof.
  intros I. unfold convertToType. rewrite (toAny_zero_interface I). reflexivity.
Qed.

End WithLaws.

(** [Scan] of a non-nil value when [*T] has no [Scan] method: the payload
    and the error are those of [convertToType], the flag says whether it
    succeeded. *)
Lemma Scan_without_hook (d : dyn) (n : Nullable T) :
  ptrScanner = None ->
  call (Scan (Some d)) n =
    (snd (convertToType (Some d)),
     {| value := fst (convertToType (Some d));
        valid := match snd (convertToType (Some d)) with
                 | None => true
                 | Some _ => false
                 end |}).
Proof.
  intros H. unfold call, Scan. cbn [recv body]. rewrite H.
  destruct (convertToType (Some d)) as [v [e|]]; destruct n; reflexivity.
Qed.

(** [Scan] of a non-nil value when [*T] has a [Scan] method: the payload is
    what the method left in the field, the flag says whether it succeeded. *)
Lemma Scan_with_hook (hook : T -> any -> T * error) (d : dyn) (n : Nullable T) :
  ptrScanner = Some hook ->
  call (Scan (Some d)) n =
    (snd (hook (value n) (Some d)),
     {| value := fst (hook (value n) (Some d));
        valid := match snd (hook (value n) (Some d)) with
                 | None => true
                 | Some _ => false
                 end |}).
Proof.
  intros H. unfold call, Scan. cbn [recv body]. rewrite H.
  destruct n as [v b]. cbn.
  destruct (hook v (Some d)) as [v' [e|]]; reflexivity.
Qed.

(** C3. When [*T] has no [Scan] method and [x] is not nil: [Scan(x)]
    succeeds, present, with a payload equal to [x], when the runtime type of
    [x] is exactly [T]; it fails with [ErrUnsupportedConversion] and leaves
    the instance absent when the runtime type of [x] differs from [T].  (A
    runtime type is never an interface type.) *)
Theorem Scan_strict_same_type `{laws : !GoTypeLaws T} (x : dyn) (n : Nullable T) :
  ptrScanner = None ->
  (forall v : T,
      toAny v = Some x -> dtype x = typeT -> Type_Kind (dtype x) <> Interface ->
      call (Scan (Some x)) n = (no_error, {| value := v; valid := true |})) /\
  (dtype x <> typeT ->
      call (Scan (Some x)) n
        = (Some ErrUnsupportedConversion, {| value := zero; valid := false |})).
Proof.
  intros H. split.
  - intros v Hv Ht NI. rewrite Ht in NI.
    rewrite (Scan_without_hook _ _ H), <- Hv, (convertToType_same v NI).
    reflexivity.
  - intros D. rewrite (Scan_without_hook _ _ H), (convertToType_other _ D).
    reflexivity.
Qed.

(** C8. When [T] is an interface type and [*T] has no [Scan] method,
    [Scan] fails with [ErrUnsupportedConversion] on every non-nil value: the
    zero value of [T] is the nil interface, whose [reflect.TypeOf] is nil and
    equals no runtime type. *)
Theorem Scan_interface_type_always_fails `{laws : !GoTypeLaws T}
    (x : dyn) (n : Nullable T) :
  Type_Kind typeT = Interface ->
  ptrScanner = None ->
  reflect_TypeOf (toAny zero) = None /\
  call (Scan (Some x)) n
    = (Some ErrUnsupportedConversion, {| value := zero; valid := false |}).
Proof.
  intros I H. split.
  - rewrite (toAny_zero_interface I). reflexivity.
  - rewrite (Scan_without_hook _ _ H), (convertToType_interface _ I).
    reflexivity.
Qed.

(** *** [Value] *)

Lemma to_int64_small (u : Z) : 0 <= u < 2 ^ 63 -> to_int64 u = u.
Proof. intros R. unfold to_int64. rewrite Z.mod_small; lia. Qed.

Lemma to_int64_high (u : Z) : 2 ^ 63 <= u < 2 ^ 64 -> to_int64 u = u - 2 ^ 64.
Proof.
  intros R. unfold to_int64.
  replace (u + 2 ^ 63) with ((u - 2 ^ 63) + 1 * 2 ^ 64) by lia.
  rewrite Z.mod_add by lia. rewrite Z.mod_small; lia.
Qed.

(** A present payload that is not a [driver.Valuer] goes through
    [convertToDriverValue]. *)
Lemma Value_present (payload : T) (d : dyn) :
  toAny payload = Some d ->
  driverValuer (dtype d) = None ->
  fst (call Value {| value := payload; valid := true |})
    = convertToDriverValue (Some d).
Proof.
  intros E V. unfold call, Value, evalState. cbn. rewrite E.
  destruct d as [t rv]. simpl in V. rewrite V. reflexivity.
Qed.

(** A present payload that is a [driver.Valuer] answers through its own
    [Value] method. *)
Lemma Value_present_valuer (payload : T) (d : dyn) (f : rvalue -> any * error) :
  toAny payload = Some d ->
  driverValuer (dtype d) = Some f ->
  fst (call Value {| value := payload; valid := true |}) = f (dval d).
Proof.
  intros E V. unfold call, Value, evalState. cbn. rewrite E.
  destruct d as [t rv]. simpl in V. rewrite V. reflexivity.
Qed.

(** What [convertToDriverValue] does on an unsigned integer: the 63-bit
    guard is applied to the kind [Uint64] only. *)
Lemma convertToDriverValue_unsigned (t : rtype) (u : Z) :
  driverValuer t = None ->
  is_uint_kind (Type_Kind t) = true ->
  convertToDriverValue (Some (t, VUint u)) =
    if Kind_eq_dec (Type_Kind t) Uint64 then
      if u >=? 2 ^ 63
      then (None, Some (Errorf "uint64 values with high bit set are not supported" []))
      else (Some (t_int64, VInt (to_int64 u)), no_error)
    else (Some (t_int64, VInt (to_int64 u)), no_error).
Proof.
  intros V K. unfold convertToDriverValue, convertToDriverValue_dyn. rewrite V.
  destruct (Type_Kind t); try discriminate K; reflexivity.
Qed.

(** An unsigned payload below 2^63 is returned as that [int64], for every
    unsigned kind. *)
Lemma Value_unsigned_below_2_63 (uintSize : Z) (payload : T) (d : dyn) (u : Z) :
  toAny payload = Some d ->
  driverValuer (dtype d) = None ->
  is_uint_value uintSize d u ->
  u < 2 ^ 63 ->
  fst (call Value {| value := payload; valid := true |})
    = (Some (t_int64, VInt u), no_error).
Proof.
  intros E V (K & Dv & R) Lt.
  rewrite (Value_present _ _ E V). destruct d as [t rv].
  cbn [dtype dval fst snd] in *. subst rv.
  rewrite (convertToDriverValue_unsigned _ _ V K).
  rewrite to_int64_small by lia.
  destruct (Kind_eq_dec _ _); [|reflexivity].
  destruct (Z.geb_spec u (2 ^ 63)); [lia | reflexivity].
Qed.

(** An unsigned payload of 2^63 or more is refused when its kind is not the
    platform-sized [uint]. *)
Lemma Value_unsigned_high_bit_refused (uintSize : Z) (payload : T) (d : dyn) (u : Z) :
  toAny payload = Some d ->
  driverValuer (dtype d) = None ->
  is_uint_value uintSize d u ->
  Type_Kind (dtype d) <> Uint ->
  2 ^ 63 <= u ->
  fst (call Value {| value := payload; valid := true |})
    = (None, Some (Errorf "uint64 values with high bit set are not supported" [])).
Proof.
  intros E V (K & Dv & R) NU Ge.
  rewrite (Value_present _ _ E V). destruct d as [t rv].
  cbn [dtype dval fst snd] in *. subst rv.
  rewrite (convertToDriverValue_unsigned _ _ V K).
  assert (P8 : 2 ^ 8 < 2 ^ 63) by (apply Z.pow_lt_mono_r; lia).
  assert (P16 : 2 ^ 16 < 2 ^ 63) by (apply Z.pow_lt_mono_r; lia).
  assert (P32 : 2 ^ 32 < 2 ^ 63) by (apply Z.pow_lt_mono_r; lia).
  destruct (Type_Kind t); try discriminate K; cbn [uint_bits] in R;
    try contradiction; try (exfalso; lia).
  destruct (Kind_eq_dec Uint64 Uint64); [|contradiction].
  destruct (Z.geb_spec u (2 ^ 63)); [reflexivity | lia].
Qed.

(** An unsigned payload of 2^63 or more whose kind is the platform-sized
    [uint] is returned, without error, as the negative [int64] with the same
    bits. *)
Lemma Value_uint_high_bit_wraps (payload : T) (d : dyn) (u : Z) :
  toAny payload = Some d ->
  driverValuer (dtype d) = None ->
  is_uint_value 64 d u ->
  Type_Kind (dtype d) = Uint ->
  2 ^ 63 <= u ->
  fst (call Value {| value := payload; valid := true |})
    = (Some (t_int64, VInt (u - 2 ^ 64)), no_error).
Proof.
  intros E V (K & Dv & R) IsU Ge.
  rewrite (Value_present _ _ E V). destruct d as [t rv].
  cbn [dtype dval fst snd] in *. subst rv.
  rewrite (convertToDriverValue_unsigned _ _ V K).
  rewrite IsU in *. cbn [uint_bits] in R.
  destruct (Kind_eq_dec Uint Uint64); [discriminate|].
  rewrite to_int64_high by lia. reflexivity.
Qed.

(** *** The YAML adapter *)

Lemma MarshalYAML_spec (n : Nullable T) :
  fst (call MarshalYAML n)
    = if valid n then (toAny (value n), no_error) else (None, no_error).
Proof. destruct n as [v [|]]; reflexivity. Qed.

Lemma UnmarshalYAML_nil (unmarshal : option T -> option T * error) (n : Nullable T) :
  unmarshal None = (None, no_error) ->
  call (UnmarshalYAML unmarshal) n = (no_error, {| value := zero; valid := false |}).
Proof. intros U. unfold call, UnmarshalYAML. cbn. rewrite U. reflexivity. Qed.

Lemma UnmarshalYAML_value (unmarshal : option T -> option T * error)
    (v : T) (n : Nullable T) :
  unmarshal None = (Some v, no_error) ->
  call (UnmarshalYAML unmarshal) n = (no_error, {| value := v; valid := true |}).
Proof. intros U. unfold call, UnmarshalYAML. cbn. rewrite U. reflexivity. Qed.

(** A failed YAML decode clears the flag and leaves the payload field as it
    was before the call. *)
Lemma UnmarshalYAML_error (unmarshal : option T -> option T * error)
    (p : option T) (e : err) (n : Nullable T) :
  unmarshal None = (p, Some e) ->
  call (UnmarshalYAML unmarshal) n = (Some e, {| value := value n; valid := false |}).
Proof. intros U. unfold call, UnmarshalYAML. cbn. rewrite U. reflexivity. Qed.

(** *** The JSON adapter *)

Section JSON.
Context `{jsonT : JSONDecoder T}.

Lemma MarshalJSON_spec (n : Nullable T) :
  fst (call MarshalJSON n)
    = if valid n then json_Marshal (toAny (value n))
      else (list_byte_of_string "null", no_error).
Proof. destruct n as [v [|]]; reflexivity. Qed.

Lemma UnmarshalJSON_null (data : list byte) (n : Nullable T) :
  string_of_list_byte data = "null" ->
  call (UnmarshalJSON data) n = (no_error, {| value := zero; valid := false |}).
Proof. intros D. unfold call, UnmarshalJSON. cbn. rewrite D. reflexivity. Qed.

Lemma UnmarshalJSON_value (data : list byte) (v : T) (n : Nullable T) :
  string_of_list_byte data <> "null" ->
  json_Unmarshal data zero = (v, no_error) ->
  call (UnmarshalJSON data) n = (no_error, {| value := v; valid := true |}).
Proof.
  intros D U. unfold call, UnmarshalJSON. cbn.
  destruct (String.eqb_spec (string_of_list_byte data) "null"); [contradiction|].
  rewrite U. reflexivity.
Qed.

(** A failed JSON decode clears the flag and leaves the payload field as it
    was before the call: the decoder wrote into a local variable. *)
Lemma UnmarshalJSON_error (data : list byte) (v : T) (e : err) (n : Nullable T) :
  string_of_list_byte data <> "null" ->
  json_Unmarshal data zero = (v, Some e) ->
  call (UnmarshalJSON data) n = (Some e, {| value := value n; valid := false |}).
Proof.
  intros D U. unfold call, UnmarshalJSON. cbn.
  destruct (String.eqb_spec (string_of_list_byte data) "null"); [contradiction|].
  rewrite U. reflexivity.
Qed.

(** Every failing mutation leaves the instance absent, so that [OrElse]
    answers with the default. *)
Lemma failed_UnmarshalJSON_absent (data : list byte) (n : Nullable T) (d : T) :
  fst (call (UnmarshalJSON data) n) <> no_error ->
  valid (snd (call (UnmarshalJSON data) n)) = false /\
  fst (call (OrElse d) (snd (call (UnmarshalJSON data) n))) = d.
Proof.
  unfold call, UnmarshalJSON, OrElse, evalState. cbn.
  destruct (String.eqb _ _); cbn; [intros C; now elim C|].
  destruct (json_Unmarshal data zero) as [v [e|]]; cbn; [|intros C; now elim C].
  intros _. split; reflexivity.
Qed.

Lemma failed_UnmarshalYAML_absent (unmarshal : option T -> option T * error)
    (n : Nullable T) (d : T) :
  fst (call (UnmarshalYAML unmarshal) n) <> no_error ->
  valid (snd (call (UnmarshalYAML unmarshal) n)) = false /\
  fst (call (OrElse d) (snd (call (UnmarshalYAML unmarshal) n))) = d.
Proof.
  unfold call, UnmarshalYAML, OrElse, evalState. cbn.
  destruct (unmarshal None) as [[v|] [e|]]; cbn;
    try (intros C; now elim C); intros _; split; reflexivity.
Qed.

Lemma failed_Scan_absent (x : any) (n : Nullable T) (d : T) :
  fst (call (Scan x) n) <> no_error ->
  valid (snd (call (Scan x) n)) = false /\
  fst (call (OrElse d) (snd (call (Scan x) n))) = d.
Proof.
  destruct x as [dv|]; [|rewrite Scan_of_nil; intros C; now elim C].
  destruct ptrScanner as [hook|] eqn:H.
  - rewrite (Scan_with_hook hook _ _ H). cbn [fst snd valid].
    destruct (snd (hook (value n) (Some dv))); [|intros C; now elim C].
    intros _. split; reflexivity.
  - rewrite (Scan_without_hook _ _ H). cbn [fst snd valid].
    destruct (snd (convertToType (Some dv))); [|intros C; now elim C].
    intros _. split; reflexivity.
Qed.

(** A failed [Scan] through the coercion helper also resets the payload. *)
Lemma failed_Scan_without_hook_zeroes (x : any) (n : Nullable T) :
  ptrScanner = None ->
  fst (call (Scan x) n) <> no_error ->
  snd (call (Scan x) n) = {| value := zero; valid := false |}.
Proof.
  intros H. destruct x as [dv|].
  - rewrite (Scan_without_hook _ _ H). cbn [fst snd].
    destruct (convertToType (Some dv)) as [v [e|]] eqn:C; cbn [fst snd].
    + intros _. destruct (convertToType_error _ _ _ C) as [-> _]. reflexivity.
    + intros F. now elim F.
  - rewrite Scan_of_nil. intros F. now elim F.
Qed.

(** C10. [OrElse], [GetValue], [IsNull], [HasValue], [MarshalJSON],
    [MarshalYAML] and [Value] have a value receiver and leave both fields as
    they were; the methods with a pointer receiver, the only ones that can
    change an instance, are [Scan], [UnmarshalJSON] and [UnmarshalYAML]. *)
Theorem read_side_methods_leave_instance :
  (forall d : T, read_only (OrElse d)) /\
  read_only (T := T) GetValue /\
  read_only (T := T) IsNull /\
  read_only (T := T) HasValue /\
  read_only (T := T) MarshalJSON /\
  read_only (T := T) MarshalYAML /\
  read_only (T := T) Value /\
  (forall x, recv (Scan x) = ByPointer) /\
  (forall data, recv (UnmarshalJSON data) = ByPointer) /\
  (forall unmarshal, recv (UnmarshalYAML unmarshal) = ByPointer).
Proof.
  unfold read_only.
  repeat match goal with
         | |- _ /\ _ => split
         | |- forall _, _ => intro
         | |- recv _ = _ => reflexivity
         | |- snd (call _ _) = _ => reflexivity
         end.
  all: match goal with x : Nullable T |- _ => destruct x as [v [|]] end.
  all: unfold execState; cbn; try reflexivity.
  all: destruct (toAny v) as [[t rv]|]; try reflexivity.
  all: destruct (driverValuer t); reflexivity.
Qed.

(** The three mutators do change instances. *)
Lemma mutators_mutate (v : T) :
  snd (call (Scan None) (FromValue v)) <> FromValue v /\
  snd (call (UnmarshalJSON (list_byte_of_string "null")) (FromValue v)) <> FromValue v /\
  snd (call (UnmarshalYAML (fun p => (p, no_error))) (FromValue v)) <> FromValue v.
Proof. repeat split; cbn; intros E; inversion E. Qed.

(** C4, as amended.  When [T] round-trips under [encoding/json]: an absent
    instance is encoded as [null] and decoded as the absent instance with
    zero payload; a present instance whose payload is not encoded as the
    token [null] is decoded as itself; a present instance whose payload is
    encoded as the token [null] is decoded as the absent instance. *)
Theorem json_round_trip_spec (x n0 : Nullable T) :
  codec_round_trips ->
  (valid x = false -> json_round_trip x n0 = (no_error, Null)) /\
  (valid x = true ->
     string_of_list_byte (json_token (value x)) <> "null" ->
     json_round_trip x n0 = (no_error, x)) /\
  (valid x = true ->
     string_of_list_byte (json_token (value x)) = "null" ->
     json_round_trip x n0 = (no_error, Null)).
Proof.
  intros RT. destruct x as [v b]. cbn [valid value].
  destruct (RT v) as [Enc Dec]. unfold json_token in *.
  unfold json_round_trip. rewrite MarshalJSON_spec. cbn [valid value].
  repeat split; intros ->; try intros Tok.
  - cbv beta iota delta [no_error]. rewrite UnmarshalJSON_null; reflexivity.
  - destruct (json_Marshal (toAny v)) as [data e]. cbn [fst snd] in *. subst e.
    cbv beta iota delta [no_error]. rewrite (UnmarshalJSON_value _ v); auto.
  - destruct (json_Marshal (toAny v)) as [data e]. cbn [fst snd] in *. subst e.
    cbv beta iota delta [no_error]. rewrite UnmarshalJSON_null; auto.
Qed.

End JSON.

End Generic.
(* --------------------------------------------------------------------- *)
(** *** The laws at the concrete payload types *)

Ltac concrete_laws :=
  constructor; cbn;
  [ intros _ v; reflexivity
  | intros K; try discriminate K; reflexivity
  | intros v _; try reflexivity ].

Lemma Laws_int : GoTypeLaws Z (H := GoType_int).
Proof. concrete_laws. Qed.

Lemma Laws_uint : GoTypeLaws Z (H := GoType_uint).
Proof. concrete_laws. Qed.

Lemma Laws_uint64 : GoTypeLaws Z (H := GoType_uint64).
Proof. concrete_laws. Qed.

Lemma Laws_uint8 : GoTypeLaws Z (H := GoType_uint8).
Proof. concrete_laws. Qed.

Lemma Laws_string : GoTypeLaws string (H := GoType_string).
Proof. concrete_laws. Qed.

Lemma Laws_TestStruct : GoTypeLaws string (H := GoType_TestStruct).
Proof. concrete_laws. Qed.

Lemma Laws_ptr_bool : GoTypeLaws (option bool) (H := GoType_ptr_bool).
Proof. concrete_laws. destruct v; reflexivity. Qed.

Lemma Laws_any : GoTypeLaws any (H := GoType_any).
Proof.
  constructor; cbn.
  - intros K. now elim K.
  - reflexivity.
  - intros [d|] N; [reflexivity | now elim N].
Qed.

(** [*bool] round-trips under the JSON fragment. *)
Lemma codec_ptr_bool :
  codec_round_trips (prog := test_program) (goT := GoType_ptr_bool)
    (jsonT := JSON_ptr_bool).
Proof. intros [[|]|]; split; reflexivity. Qed.

(* --------------------------------------------------------------------- *)
(** *** The cases of the test file *)

Section TestFile.
#[local] Existing Instance test_program.

Example test_Null_int :
  Null (goT := GoType_int) = {| value := 0; valid := false |}.
Proof. reflexivity. Qed.

Example test_FromPointer_non_nil :
  FromPointer (goT := GoType_int) (Some 42) = {| value := 42; valid := true |}.
Proof. reflexivity. Qed.

Example test_FromPointer_nil :
  FromPointer (goT := GoType_string) None = {| value := ""; valid := false |}.
Proof. reflexivity. Qed.

Example test_OrElse :
  fst (call (OrElse "default") (FromValue "hello")) = "hello" /\
  fst (call (OrElse "default") (Null (goT := GoType_string))) = "default".
Proof. split; reflexivity. Qed.

Example test_UnmarshalJSON_123 :
  call (UnmarshalJSON (goT := GoType_int) (jsonT := JSON_int) (bytes "123"))
       (zero_Nullable (goT := GoType_int))
    = (no_error, {| value := 123; valid := true |}).
Proof. reflexivity. Qed.

Example test_UnmarshalJSON_null :
  call (UnmarshalJSON (goT := GoType_int) (jsonT := JSON_int) (bytes "null"))
       (FromValue 5)
    = (no_error, {| value := 0; valid := false |}).
Proof. reflexivity. Qed.

Example test_Scan_string :
  call (Scan (goT := GoType_string) (Some (t_string, VString "database test")))
       (zero_Nullable (goT := GoType_string))
    = (no_error, {| value := "database test"; valid := true |}).
Proof. reflexivity. Qed.

Example test_Scan_float_into_string :
  call (Scan (goT := GoType_string) float64_3_14)
       (zero_Nullable (goT := GoType_string))
    = (Some ErrUnsupportedConversion, {| value := ""; valid := false |}).
Proof. reflexivity. Qed.

Example test_Value_string :
  fst (call (Value (goT := GoType_string)) (FromValue "driver value test"))
    = (Some (t_string, VString "driver value test"), no_error).
Proof. reflexivity. Qed.

Example test_TestStruct_Scan_then_Value :
  call (Scan (goT := GoType_TestStruct) (Some (t_string, VString "custom type")))
       (zero_Nullable (goT := GoType_TestStruct))
    = (no_error, {| value := "custom type"; valid := true |}) /\
  fst (call (Value (goT := GoType_TestStruct)) {| value := "custom type"; valid := true |})
    = (Some (t_string, VString "custom type"), no_error).
Proof. split; reflexivity. Qed.

(** Absent instances of a type with both hooks: [Scan(nil)] and [Value()]
    do not reach the hooks. *)
Example test_TestStruct_absent :
  call (Scan (goT := GoType_TestStruct) None) (FromValue "x")
    = (no_error, {| value := ""; valid := false |}) /\
  fst (call (Value (goT := GoType_TestStruct)) {| value := "x"; valid := false |})
    = (None, no_error).
Proof. split; reflexivity. Qed.

Example test_Value_unsupported_struct :
  fst (call (Value (goT := GoType_Unsupported)) (FromValue 1))
    = (None, Some (Errorf "unsupported struct type: %s" [ArgType t_Unsupported])).
Proof. reflexivity. Qed.

(** Rows of the conversion table of [convertToDriverValue]. *)
Example table_nil_pointer :
  convertToDriverValue (Some (t_ptr_bool, VPointer None)) = (None, no_error).
Proof. reflexivity. Qed.

Example table_pointer_recurses :
  convertToDriverValue
    (Some (PointerTo t_ptr_bool,
           VPointer (Some (Some (t_ptr_bool,
                                 VPointer (Some (Some (t_bool, VBool true))))))))
    = (Some (t_bool, VBool true), no_error).
Proof. reflexivity. Qed.

Example table_signed :
  convertToDriverValue (Some (Basic Int8, VInt (-5))) = (Some (t_int64, VInt (-5)), no_error).
Proof. reflexivity. Qed.

Example table_bytes :
  convertToDriverValue (Some (t_bytes, VSlice [VUint 104; VUint 105]))
    = (Some (t_bytes, VSlice [VUint 104; VUint 105]), no_error).
Proof. reflexivity. Qed.

Example table_other_slice :
  convertToDriverValue (Some (SliceOf t_int, VSlice [VInt 1; VInt 2; VInt 3]))
    = (None, Some (Errorf "unsupported slice type: %s" [ArgKind Int])).
Proof. reflexivity. Qed.

Example table_time :
  convertToDriverValue (Some (time_Time, VStruct [VUint 0; VInt 0; VPointer None]))
    = (Some (time_Time, VStruct [VUint 0; VInt 0; VPointer None]), no_error).
Proof. reflexivity. Qed.

Example table_uintptr :
  convertToDriverValue (Some (Basic Uintptr, VUint 1))
    = (None, Some (Errorf "unsupported type: %T" [ArgTypeOf (Some (Basic Uintptr, VUint 1))])).
Proof. reflexivity. Qed.

Example table_uint8_uint32 :
  convertToDriverValue (Some (t_uint8, VUint 255)) = (Some (t_int64, VInt 255), no_error) /\
  convertToDriverValue (Some (Basic Uint32, VUint (2 ^ 32 - 1)))
    = (Some (t_int64, VInt 4294967295), no_error).
Proof. split; reflexivity. Qed.

End TestFile.

(* --------------------------------------------------------------------- *)
(** *** The properties at concrete inputs *)

(** [scan("hi")] into a [Nullable[string]] gives present, ["hi"];
    [scan(3.14)] into a [Nullable[int]] fails and leaves it absent. *)
Lemma Scan_strict_same_type_witness :
  call (Scan (goT := GoType_string) (Some (t_string, VString "hi")))
       (Null (goT := GoType_string))
    = (no_error, FromValue "hi") /\
  call (Scan (goT := GoType_int) float64_3_14) (FromValue 7)
    = (Some ErrUnsupportedConversion, Null (goT := GoType_int)).
Proof.
  split.
  - apply (proj1 (Scan_strict_same_type (goT := GoType_string) (laws := Laws_string)
                    (t_string, VString "hi") Null eq_refl) "hi").
    + reflexivity.
    + reflexivity.
    + discriminate.
  - apply (proj2 (Scan_strict_same_type (goT := GoType_int) (laws := Laws_int)
                    (t_float64, VFloat 0x40091EB851EB851F) (FromValue 7) eq_refl)).
    discriminate.
Defined.

(** Scanning a [float64] or an [int] into a [Nullable[any]] fails. *)
Lemma Scan_interface_type_always_fails_witness :
  call (Scan (goT := GoType_any) (Some (t_int, VInt 5))) (FromValue None)
    = (Some ErrUnsupportedConversion, Null (goT := GoType_any)).
Proof.
  apply (proj2 (Scan_interface_type_always_fails (goT := GoType_any) (laws := Laws_any)
                  (t_int, VInt 5) (FromValue None) eq_refl eq_refl)).
Defined.

(** A present [*bool] pointing to [true] is encoded as [true] and decoded as
    itself; an absent one is encoded as [null] and decoded as absent. *)
Lemma json_round_trip_spec_witness :
  json_round_trip (prog := test_program) (goT := GoType_ptr_bool) (jsonT := JSON_ptr_bool)
      (FromValue (Some true)) (Null (goT := GoType_ptr_bool))
    = (no_error, FromValue (Some true)) /\
  json_round_trip (prog := test_program) (goT := GoType_ptr_bool) (jsonT := JSON_ptr_bool)
      (Null (goT := GoType_ptr_bool)) (FromValue (Some true))
    = (no_error, Null (goT := GoType_ptr_bool)).
Proof.
  split.
  - apply (proj1 (proj2 (json_round_trip_spec (prog := test_program)
             (goT := GoType_ptr_bool) (jsonT := JSON_ptr_bool) (FromValue (Some true))
             (Null (goT := GoType_ptr_bool)) codec_ptr_bool))).
    + reflexivity.
    + cbn. discriminate.
  - apply (proj1 (json_round_trip_spec (prog := test_program)
             (goT := GoType_ptr_bool) (jsonT := JSON_ptr_bool)
             (Null (goT := GoType_ptr_bool)) (FromValue (Some true)) codec_ptr_bool)).
    reflexivity.
Defined.

(** C4 as stated fails: [*bool] round-trips under the codec, yet the
    present instance that holds a nil [*bool] is encoded as [null], and
    [null] is decoded as the absent instance, which is not the instance that
    was encoded. *)
Lemma json_round_trip_present_nil_pointer :
  codec_round_trips (prog := test_program) (goT := GoType_ptr_bool)
    (jsonT := JSON_ptr_bool) /\
  valid (FromValue (@None bool)) = true /\
  fst (call (MarshalJSON (prog := test_program) (goT := GoType_ptr_bool))
         (FromValue None)) = (bytes "null", no_error) /\
  json_round_trip (prog := test_program) (goT := GoType_ptr_bool) (jsonT := JSON_ptr_bool)
      (FromValue None) (FromValue None)
    = (no_error, {| value := None; valid := false |}) /\
  json_round_trip (prog := test_program) (goT := GoType_ptr_bool) (jsonT := JSON_ptr_bool)
      (FromValue None) (FromValue None)
    <> (no_error, FromValue None).
Proof.
  split; [exact codec_ptr_bool|].
  repeat split. intros E. inversion E.
Qed.

(** C1 fails on the code.  A [Nullable[int]] holding 7 that is given the
    JSON text ["invalid"], or a YAML document that does not decode, returns
    the decoder's error and becomes absent, but its payload is still 7 and
    not the zero value: [GetValue] returns 7.  The same holds after a failed
    [Scan] through a [Scan] method of [*T].  Only [OrElse] hides it. *)
Theorem failed_decode_keeps_stale_payload :
  call (UnmarshalJSON (goT := GoType_int) (jsonT := JSON_int) (quoted "invalid"))
       (FromValue 7)
    = (json_error "cannot unmarshal into Go value of integer type",
       {| value := 7; valid := false |}) /\
  call (UnmarshalYAML (goT := GoType_int) yaml_unmarshal_failing) (FromValue 7)
    = (Some (Foreign "yaml" "cannot unmarshal !!str into int"),
       {| value := 7; valid := false |}) /\
  call (Scan (goT := GoType_TestStruct) float64_3_14) (FromValue "stale")
    = (Some (Foreign "nullable_test" "failed to scan TestStruct"),
       {| value := "stale"; valid := false |}) /\
  fst (call (T := Z) GetValue {| value := 7; valid := false |}) = 7 /\
  7 <> zero (GoType := GoType_int) /\
  fst (call (T := Z) (OrElse 0) {| value := 7; valid := false |}) = 0.
Proof. repeat split. discriminate. Qed.

(** C2 fails on the code.  On a platform with a 64-bit [uint], a present
    [Nullable[uint]] holding 2^63 is not a [driver.Valuer], and [Value()]
    returns the [int64] -2^63 with no error; the same number held as a
    [uint64] is refused. *)
Theorem Value_uint_high_bit_not_refused :
  is_uint_value 64 (t_uint, VUint (2 ^ 63)) (2 ^ 63) /\
  driverValuer (Program := test_program) t_uint = None /\
  call (Value (prog := test_program) (goT := GoType_uint)) (FromValue (2 ^ 63))
    = ((Some (t_int64, VInt (- 2 ^ 63)), no_error), FromValue (2 ^ 63)) /\
  call (Value (prog := test_program) (goT := GoType_uint64)) (FromValue (2 ^ 63))
    = ((None, Some (Errorf "uint64 values with high bit set are not supported" [])),
       FromValue (2 ^ 63)).
Proof.
  split; [|repeat split].
  unfold is_uint_value. cbn [dtype dval fst snd t_uint Type_Kind is_uint_kind uint_bits].
  repeat split; lia.
Qed.

(* --------------------------------------------------------------------- *)
(** *** Further properties of the package *)

Section Further.
Context `{prog : Program}.
Context {T : Type} `{goT : GoType T}.

(** [Value] on any instance: the second test for [driver.Valuer], inside
    [convertToDriverValue], gives the answer of the first. *)
Lemma Value_unfold (n : Nullable T) :
  fst (call Value n)
    = if valid n then convertToDriverValue (toAny (value n)) else (None, no_error).
Proof.
  destruct n as [v [|]]; [|reflexivity].
  unfold call, Value, evalState. cbn.
  destruct (toAny v) as [[t rv]|]; [|reflexivity].
  destruct rv; cbn [convertToDriverValue convertToDriverValue_dyn];
    destruct (driverValuer t); reflexivity.
Qed.



(** X1. On every instance [IsNull] is the negation of [HasValue], and
    [OrElse(d)] is [GetValue()] when [HasValue()] holds and [d] otherwise. *)
Theorem accessors_agree (n : Nullable T) (d : T) :
  fst (call IsNull n) = negb (fst (call HasValue n)) /\
  fst (call (OrElse d) n)
    = if fst (call HasValue n) then fst (call GetValue n) else d.
Proof. destruct n as [v [|]]; split; reflexivity. Qed.

(** X2. [FromPointer(p)] is present exactly when [p] is not nil;
    [FromPointer(p).OrElse(d)] is the pointee of [p], or [d] when [p] is nil;
    [FromPointer(nil).GetValue()] is the zero value. *)
Theorem FromPointer_then_read (p : option T) (d : T) :
  fst (call HasValue (FromPointer p)) = match p with Some _ => true | None => false end /\
  fst (call (OrElse d) (FromPointer p)) = match p with Some v => v | None => d end /\
  fst (call GetValue (FromPointer p)) = match p with Some v => v | None => zero end.
Proof. destruct p; repeat split; reflexivity. Qed.

(** X3. Whatever [Scan] returns an error on, the instance is absent
    afterwards: [HasValue] is false and [OrElse(d)] is [d]. *)
Theorem failed_Scan_leaves_absent (x : any) (n : Nullable T) (d : T) :
  fst (call (Scan x) n) <> no_error ->
  fst (call HasValue (snd (call (Scan x) n))) = false /\
  fst (call IsNull (snd (call (Scan x) n))) = true /\
  fst (call (OrElse d) (snd (call (Scan x) n))) = d.
Proof.
  intros F. destruct (failed_Scan_absent x n d F) as [V O].
  destruct (snd (call (Scan x) n)) as [v b]. cbn [valid] in V. subst b.
  repeat split; reflexivity.
Qed.

(** X4. Without a [Scan] method on [*T], the only error [Scan] returns is
    [ErrUnsupportedConversion], and the instance is then absent with the
    zero payload. *)
Theorem Scan_error_is_sentinel (x : any) (n : Nullable T) :
  ptrScanner = None ->
  fst (call (Scan x) n) <> no_error ->
  call (Scan x) n = (Some ErrUnsupportedConversion, Null).
Proof.
  intros H F. destruct x as [dv|].
  - rewrite (Scan_without_hook _ _ H) in *. cbn [fst snd] in *.
    destruct (convertToType (Some dv)) as [v [e|]] eqn:C; cbn [fst snd] in *.
    + destruct (convertToType_error _ _ _ C) as [-> ->]. reflexivity.
    + now elim F.
  - rewrite Scan_of_nil in F. now elim F.
Qed.

(** X5. Without a [Scan] method on [*T], what [Scan(x)] returns and leaves
    in the instance does not depend on what the instance held before. *)
Theorem Scan_overwrites (x : any) (n1 n2 : Nullable T) :
  ptrScanner = None ->
  call (Scan x) n1 = call (Scan x) n2.
Proof.
  intros H. destruct x as [dv|].
  - rewrite !(Scan_without_hook _ _ H). reflexivity.
  - rewrite !Scan_of_nil. reflexivity.
Qed.



(** X8. A value behind any number of non-nil pointers, none of whose
    types is a [driver.Valuer], is converted as the value itself. *)
Theorem pointers_are_transparent (k : nat) (d : dyn) :
  (forall j : nat, (1 <= j <= k)%nat ->
     driverValuer (dtype (pointer_chain j d)) = None) ->
  convertToDriverValue (Some (pointer_chain k d)) = convertToDriverValue (Some d).
Proof.
  induction k as [|k IH]; intros NV; [reflexivity|].
  rewrite <- IH by (intros j Hj; apply NV; lia).
  pose proof (NV (S k) ltac:(lia)) as V. cbn [pointer_chain dtype fst] in V.
  cbn [pointer_chain convertToDriverValue convertToDriverValue_dyn].
  rewrite V. cbn [Type_Kind].
  destruct (pointer_chain k d) as [t' v']. reflexivity.
Qed.

(** X9. A present nil pointer that is not a [driver.Valuer] is sent as
    SQL NULL, [(nil, nil)]; a present nil interface is refused as an
    unsupported type. *)
Theorem Value_of_present_nil `{laws : !GoTypeLaws T} :
  (forall (payload : T) (t : rtype),
      toAny payload = Some (t, VPointer None) ->
      Type_Kind t = Pointer ->
      driverValuer t = None ->
      fst (call Value (FromValue payload)) = (None, no_error)) /\
  (Type_Kind typeT = Interface ->
      fst (call Value (FromValue zero))
        = (None, Some (Errorf "unsupported type: %T" [ArgTypeOf None]))).
Proof.
  split.
  - intros payload t E K V. rewrite Value_unfold. cbn [valid value FromValue].
    rewrite E. cbn [convertToDriverValue convertToDriverValue_dyn].
    rewrite V, K. reflexivity.
  - intros I. rewrite Value_unfold. cbn [valid value FromValue].
    rewrite (toAny_zero_interface I). reflexivity.
Qed.

(** X10. For an unsigned payload that is not a [driver.Valuer] and whose
    type is not a 64-bit [uint] (so [uint8], [uint16], [uint32], [uint64],
    or [uint] on a 32-bit platform), [Value()] returns the payload itself as
    an [int64] when it is below 2^63 and the high-bit error otherwise. *)
Theorem Value_unsigned_exact (uintSize : Z) (payload : T) (d : dyn) (u : Z) :
  toAny payload = Some d ->
  driverValuer (dtype d) = None ->
  is_uint_value uintSize d u ->
  Type_Kind (dtype d) <> Uint \/ uintSize <= 32 ->
  fst (call Value {| value := payload; valid := true |})
    = if u <? 2 ^ 63 then (Some (t_int64, VInt u), no_error)
      else (None, Some (Errorf "uint64 values with high bit set are not supported" [])).
Proof.
  intros E V U W. destruct (Z.ltb_spec u (2 ^ 63)) as [Lt|Ge].
  - apply (Value_unsigned_below_2_63 uintSize _ _ _ E V U Lt).
  - destruct (Kind_eq_dec (Type_Kind (dtype d)) Uint) as [IsU|NU].
    + exfalso. destruct W as [W|W]; [contradiction|].
      destruct U as (_ & _ & R). rewrite IsU in R. cbn [uint_bits] in R.
      assert (2 ^ uintSize <= 2 ^ 32) by (apply Z.pow_le_mono_r; lia).
      assert (2 ^ 32 < 2 ^ 63) by (apply Z.pow_lt_mono_r; lia).
      lia.
    + apply (Value_unsigned_high_bit_refused uintSize _ _ _ E V U NU Ge).
Qed.

(** X11. A present payload that is not a [driver.Valuer] and whose kind is
    none of pointer, integer, float, bool, slice, string and struct, or is a
    struct other than [time.Time], or is a slice of anything but bytes, is
    always refused: [Value()] returns nil and an error. *)
Theorem Value_refuses_other_shapes (payload : T) (t : rtype) (rv : rvalue) :
  toAny payload = Some (t, rv) ->
  driverValuer t = None ->
  other_kind (Type_Kind t) = true \/
  (Type_Kind t = Struct /\ t <> time_Time) \/
  (Type_Kind t = Slice /\ Type_Kind (Type_Elem t) <> Uint8) ->
  fst (fst (call Value (FromValue payload))) = None /\
  snd (fst (call Value (FromValue payload))) <> no_error.
Proof.
  intros E V S. rewrite Value_unfold. cbn [valid value FromValue]. rewrite E.
  destruct rv as [b|i|u|f|s|target|l|l|];
    cbn [convertToDriverValue convertToDriverValue_dyn]; rewrite V;
    try (destruct target as [[[t' v']|]|]);
    (destruct S as [O|[[K N]|[K N]]];
     [ destruct (Type_Kind t); try discriminate O
     | rewrite K; destruct (rtype_eq_dec t time_Time); [contradiction|]
     | rewrite K; destruct (Kind_eq_dec (Type_Kind (Type_Elem t)) Uint8);
       [contradiction|] ]);
    cbn [fst snd]; (split; [reflexivity | discriminate]).
Qed.

(** X12. For a type [T] that is not an interface type, [convertToType]
    succeeds exactly on nil and on the values whose runtime type is [T]. *)
Theorem convertToType_succeeds_iff `{laws : !GoTypeLaws T} (x : any) :
  Type_Kind typeT <> Interface ->
  snd (convertToType x) = no_error <->
  (x = None \/ reflect_TypeOf x = Some typeT).
Proof.
  intros NI. destruct x as [d|].
  - destruct (rtype_eq_dec (dtype d) typeT) as [Same|Other].
    + split; [intros _; right; cbn; now rewrite Same|intros _].
      unfold convertToType. rewrite (toAny_concrete NI zero).
      cbn [reflect_TypeOf option_map]. rewrite Same, Type_eqb_same.
      destruct (assertT (Some d)); reflexivity.
    + rewrite (convertToType_other _ Other). cbn [snd]. split.
      * discriminate.
      * intros [N|Ty]; [discriminate N|]. cbn in Ty. inversion Ty. contradiction.
  - split; [intros _; now left | reflexivity].
Qed.

(** X13. Database round trip.  When [*T] has no [Scan] method, [T] is not
    an interface type and is not a [driver.Valuer], scanning a
    [driver.Value] of type [T] and then calling [Value()] gives that
    [driver.Value] back, without error. *)
Theorem Scan_then_Value `{laws : !GoTypeLaws T} (v : T) (d : dyn) (n : Nullable T) :
  ptrScanner = None ->
  Type_Kind typeT <> Interface ->
  toAny v = Some d ->
  driverValuer (dtype d) = None ->
  driver_IsValue (Some d) = true ->
  fst (call (Scan (Some d)) n) = no_error /\
  fst (call Value (snd (call (Scan (Some d)) n))) = (Some d, no_error).
Proof.
  intros H NI E V IsV.
  rewrite (Scan_without_hook _ _ H), <- E, (convertToType_same v NI).
  cbn [fst snd]. split; [reflexivity|].
  rewrite Value_unfold. cbn [valid value]. rewrite E.
  destruct d as [t rv]. cbn [dtype fst driver_IsValue] in *.
  repeat match type of IsV with
         | context [rtype_eq_dec t ?c] => destruct (rtype_eq_dec t c) as [->|]
         end;
    try discriminate IsV;
    destruct rv; try discriminate IsV;
    cbn [convertToDriverValue convertToDriverValue_dyn]; rewrite V; reflexivity.
Qed.

Section FurtherJSON.
Context `{jsonT : JSONDecoder T}.

(** X14. The constructors build instances in which absent implies zero
    payload, and every [Scan], [UnmarshalJSON] and [UnmarshalYAML] that
    returns no error leaves such an instance, whatever it held before. *)
Theorem mutation_without_error_keeps_invariant :
  (forall v, absent_is_zero (FromValue v)) /\
  absent_is_zero Null /\
  (forall p, absent_is_zero (FromPointer p)) /\
  (forall x n, fst (call (Scan x) n) = no_error ->
               absent_is_zero (snd (call (Scan x) n))) /\
  (forall data n, fst (call (UnmarshalJSON data) n) = no_error ->
                  absent_is_zero (snd (call (UnmarshalJSON data) n))) /\
  (forall unmarshal n, fst (call (UnmarshalYAML unmarshal) n) = no_error ->
                       absent_is_zero (snd (call (UnmarshalYAML unmarshal) n))).
Proof.
  unfold absent_is_zero. repeat split.
  - intros v A. discriminate A.
  - intros [v|] A; [discriminate A | reflexivity].
  - intros [dv|] n.
    + destruct ptrScanner as [hook|] eqn:H.
      * rewrite (Scan_with_hook hook _ _ H). cbn [fst snd valid value].
        intros ->. discriminate.
      * rewrite (Scan_without_hook _ _ H). cbn [fst snd valid value].
        intros ->. discriminate.
    + rewrite Scan_of_nil. reflexivity.
  - intros data n.
    destruct (String.eqb_spec (string_of_list_byte data) "null") as [N|N].
    + rewrite (UnmarshalJSON_null _ _ N). reflexivity.
    + destruct (json_Unmarshal data zero) as [v [e|]] eqn:U.
      * rewrite (UnmarshalJSON_error _ _ _ _ N U). discriminate.
      * rewrite (UnmarshalJSON_value _ _ _ N U). discriminate.
  - intros unmarshal n.
    destruct (unmarshal None) as [[v|] [e|]] eqn:U.
    + rewrite (UnmarshalYAML_error _ _ _ _ U). discriminate.
    + rewrite (UnmarshalYAML_value _ _ _ U). discriminate.
    + rewrite (UnmarshalYAML_error _ _ _ _ U). discriminate.
    + rewrite (UnmarshalYAML_nil _ _ U). reflexivity.
Qed.

(** X15. Whatever [UnmarshalJSON] or [UnmarshalYAML] returns an error on,
    the instance is absent afterwards: [HasValue] is false and [OrElse(d)]
    is [d]. *)
Theorem failed_decode_leaves_absent (n : Nullable T) (d : T) :
  (forall data,
      fst (call (UnmarshalJSON data) n) <> no_error ->
      fst (call HasValue (snd (call (UnmarshalJSON data) n))) = false /\
      fst (call (OrElse d) (snd (call (UnmarshalJSON data) n))) = d) /\
  (forall unmarshal,
      fst (call (UnmarshalYAML unmarshal) n) <> no_error ->
      fst (call HasValue (snd (call (UnmarshalYAML unmarshal) n))) = false /\
      fst (call (OrElse d) (snd (call (UnmarshalYAML unmarshal) n))) = d).
Proof.
  split.
  - intros data F. destruct (failed_UnmarshalJSON_absent data n d F) as [V O].
    split; [|exact O].
    destruct (snd (call (UnmarshalJSON data) n)) as [v b]. exact V.
  - intros unmarshal F.
    destruct (failed_UnmarshalYAML_absent unmarshal n d F) as [V O].
    split; [|exact O].
    destruct (snd (call (UnmarshalYAML unmarshal) n)) as [v b]. exact V.
Qed.

(** X16. A decode that returns no error overwrites the instance: the
    result of [UnmarshalJSON] or [UnmarshalYAML] does not depend on what the
    instance held before. *)
Theorem decode_without_error_overwrites (n1 n2 : Nullable T) :
  (forall data,
      fst (call (UnmarshalJSON data) n1) = no_error ->
      call (UnmarshalJSON data) n1 = call (UnmarshalJSON data) n2) /\
  (forall unmarshal,
      fst (call (UnmarshalYAML unmarshal) n1) = no_error ->
      call (UnmarshalYAML unmarshal) n1 = call (UnmarshalYAML unmarshal) n2).
Proof.
  split.
  - intros data.
    destruct (String.eqb_spec (string_of_list_byte data) "null") as [N|N].
    + rewrite !(UnmarshalJSON_null _ _ N). reflexivity.
    + destruct (json_Unmarshal data zero) as [v [e|]] eqn:U.
      * rewrite (UnmarshalJSON_error _ _ _ _ N U). discriminate.
      * rewrite !(UnmarshalJSON_value _ _ _ N U). reflexivity.
  - intros unmarshal.
    destruct (unmarshal None) as [[v|] [e|]] eqn:U.
    + rewrite (UnmarshalYAML_error _ _ _ _ U). discriminate.
    + rewrite !(UnmarshalYAML_value _ _ _ U). reflexivity.
    + rewrite (UnmarshalYAML_error _ _ _ _ U). discriminate.
    + rewrite !(UnmarshalYAML_nil _ _ U). reflexivity.
Qed.

(** X17. Decoding and then encoding.  The token [null] is decoded without
    error and encoded back as [null]; any other bytes that the codec of [T]
    decodes to a value it encodes as the same bytes are decoded without
    error and encoded back as the same bytes. *)
Theorem json_decode_then_encode (data : list byte) (v : T) (n0 : Nullable T) :
  string_of_list_byte data = "null" \/
  (json_Unmarshal data zero = (v, no_error) /\
   json_Marshal (toAny v) = (data, no_error)) ->
  fst (call (UnmarshalJSON data) n0) = no_error /\
  fst (call MarshalJSON (snd (call (UnmarshalJSON data) n0))) = (data, no_error).
Proof.
  intros C.
  destruct (String.eqb_spec (string_of_list_byte data) "null") as [N|N].
  - rewrite (UnmarshalJSON_null _ _ N). split; [reflexivity|].
    rewrite MarshalJSON_spec. cbn [snd valid].
    rewrite <- N, list_byte_of_string_of_list_byte. reflexivity.
  - destruct C as [C|[U M]]; [contradiction|].
    rewrite (UnmarshalJSON_value _ _ _ N U). split; [reflexivity|].
    rewrite MarshalJSON_spec. cbn [snd valid value]. exact M.
Qed.

(** X18. After a decode that returns no error, the instance is absent
    exactly when the JSON bytes were the four bytes [null], or the YAML
    callback left its target nil. *)
Theorem decode_presence (n : Nullable T) :
  (forall data,
      fst (call (UnmarshalJSON data) n) = no_error ->
      fst (call IsNull (snd (call (UnmarshalJSON data) n)))
        = String.eqb (string_of_list_byte data) "null") /\
  (forall unmarshal,
      fst (call (UnmarshalYAML unmarshal) n) = no_error ->
      fst (call IsNull (snd (call (UnmarshalYAML unmarshal) n)))
        = match fst (unmarshal None) with None => true | Some _ => false end).
Proof.
  split.
  - intros data.
    destruct (String.eqb_spec (string_of_list_byte data) "null") as [N|N].
    + rewrite (UnmarshalJSON_null _ _ N). reflexivity.
    + destruct (json_Unmarshal data zero) as [v [e|]] eqn:U.
      * rewrite (UnmarshalJSON_error _ _ _ _ N U). discriminate.
      * rewrite (UnmarshalJSON_value _ _ _ N U). reflexivity.
  - intros unmarshal.
    destruct (unmarshal None) as [[v|] [e|]] eqn:U; cbn [fst].
    + rewrite (UnmarshalYAML_error _ _ _ _ U). discriminate.
    + rewrite (UnmarshalYAML_value _ _ _ U). reflexivity.
    + rewrite (UnmarshalYAML_error _ _ _ _ U). discriminate.
    + rewrite (UnmarshalYAML_nil _ _ U). reflexivity.
Qed.

End FurtherJSON.

End Further.

(* --------------------------------------------------------------------- *)
(** *** The further properties at concrete inputs *)


Lemma failed_Scan_leaves_absent_witness :
  fst (call HasValue
         (snd (call (Scan (goT := GoType_TestStruct) float64_3_14) (FromValue "x"))))
    = false /\
  fst (call IsNull
         (snd (call (Scan (goT := GoType_TestStruct) float64_3_14) (FromValue "x"))))
    = true /\
  fst (call (OrElse "d")
         (snd (call (Scan (goT := GoType_TestStruct) float64_3_14) (FromValue "x"))))
    = "d".
Proof.
  apply (failed_Scan_leaves_absent (goT := GoType_TestStruct)
           float64_3_14 (FromValue "x") "d").
  discriminate.
Defined.

Lemma Scan_error_is_sentinel_witness :
  call (Scan (goT := GoType_int) float64_3_14) (FromValue 7)
    = (Some ErrUnsupportedConversion, Null (goT := GoType_int)).
Proof.
  apply (Scan_error_is_sentinel (goT := GoType_int) float64_3_14 (FromValue 7) eq_refl).
  discriminate.
Defined.

Lemma Scan_overwrites_witness :
  call (Scan (goT := GoType_string) (Some (t_string, VString "hi"))) (FromValue "old")
    = call (Scan (goT := GoType_string) (Some (t_string, VString "hi")))
        (Null (goT := GoType_string)).
Proof.
  apply (Scan_overwrites (goT := GoType_string) (Some (t_string, VString "hi"))
           (FromValue "old") (Null (goT := GoType_string)) eq_refl).
Defined.



Lemma pointers_are_transparent_witness :
  convertToDriverValue (prog := test_program)
      (Some (pointer_chain 2 (t_bool, VBool true)))
    = convertToDriverValue (prog := test_program) (Some (t_bool, VBool true)).
Proof.
  apply (pointers_are_transparent (prog := test_program) 2 (t_bool, VBool true)).
  intros j Hj.
  destruct j as [|[|[|j]]]; [lia | reflexivity | reflexivity | lia].
Defined.

Lemma Value_of_present_nil_witness :
  fst (call (Value (prog := test_program) (goT := GoType_ptr_bool)) (FromValue None))
    = (None, no_error) /\
  fst (call (Value (prog := test_program) (goT := GoType_any)) (FromValue None))
    = (None, Some (Errorf "unsupported type: %T" [ArgTypeOf None])).
Proof.
  split.
  - apply (proj1 (Value_of_present_nil (prog := test_program) (goT := GoType_ptr_bool)
                    (laws := Laws_ptr_bool)) None t_ptr_bool);
      reflexivity.
  - apply (proj2 (Value_of_present_nil (prog := test_program) (goT := GoType_any)
                    (laws := Laws_any))).
    reflexivity.
Defined.

Lemma Value_unsigned_exact_witness :
  fst (call (Value (prog := test_program) (goT := GoType_uint8))
         {| value := 255; valid := true |})
    = (Some (t_int64, VInt 255), no_error) /\
  fst (call (Value (prog := test_program) (goT := GoType_uint64))
         {| value := 2 ^ 63; valid := true |})
    = (None, Some (Errorf "uint64 values with high bit set are not supported" [])).
Proof.
  split.
  - apply (Value_unsigned_exact (prog := test_program) (goT := GoType_uint8)
             64 255 (t_uint8, VUint 255) 255 eq_refl eq_refl).
    + repeat split; cbn; lia.
    + left. discriminate.
  - apply (Value_unsigned_exact (prog := test_program) (goT := GoType_uint64)
             64 (2 ^ 63) (t_uint64, VUint (2 ^ 63)) (2 ^ 63) eq_refl eq_refl).
    + repeat split; cbn; lia.
    + left. discriminate.
Defined.

Lemma Value_refuses_other_shapes_witness :
  fst (fst (call (Value (prog := test_program) (goT := GoType_Unsupported))
              (FromValue 1))) = None /\
  snd (fst (call (Value (prog := test_program) (goT := GoType_Unsupported))
              (FromValue 1))) <> no_error.
Proof.
  apply (Value_refuses_other_shapes (prog := test_program) (goT := GoType_Unsupported)
           1 t_Unsupported (VStruct [VInt 1]) eq_refl eq_refl).
  right. left. split; [reflexivity | discriminate].
Defined.

Lemma convertToType_succeeds_iff_witness :
  (snd (convertToType (goT := GoType_int) float64_3_14) = no_error <->
   (float64_3_14 = None \/ reflect_TypeOf float64_3_14 = Some t_int)) /\
  (snd (convertToType (goT := GoType_int) (Some (t_int, VInt 3))) = no_error <->
   (Some (t_int, VInt 3) = None \/ reflect_TypeOf (Some (t_int, VInt 3)) = Some t_int)).
Proof.
  split.
  - apply (convertToType_succeeds_iff (goT := GoType_int) (laws := Laws_int)
             float64_3_14).
    discriminate.
  - apply (convertToType_succeeds_iff (goT := GoType_int) (laws := Laws_int)
             (Some (t_int, VInt 3))).
    discriminate.
Defined.

Lemma Scan_then_Value_witness :
  fst (call (Scan (goT := GoType_string) (Some (t_string, VString "hi")))
         (Null (goT := GoType_string))) = no_error /\
  fst (call (Value (prog := test_program) (goT := GoType_string))
         (snd (call (Scan (goT := GoType_string) (Some (t_string, VString "hi")))
                 (Null (goT := GoType_string)))))
    = (Some (t_string, VString "hi"), no_error).
Proof.
  apply (Scan_then_Value (prog := test_program) (goT := GoType_string)
           (laws := Laws_string) "hi" (t_string, VString "hi")
           (Null (goT := GoType_string)) eq_refl).
  - discriminate.
  - reflexivity.
  - reflexivity.
  - reflexivity.
Defined.

Lemma json_decode_then_encode_witness :
  fst (call (UnmarshalJSON (goT := GoType_ptr_bool) (jsonT := JSON_ptr_bool) (bytes "true"))
         (Null (goT := GoType_ptr_bool))) = no_error /\
  fst (call (MarshalJSON (prog := test_program) (goT := GoType_ptr_bool))
         (snd (call (UnmarshalJSON (goT := GoType_ptr_bool) (jsonT := JSON_ptr_bool)
                      (bytes "true"))
                 (Null (goT := GoType_ptr_bool)))))
    = (bytes "true", no_error).
Proof.
  apply (json_decode_then_encode (prog := test_program) (goT := GoType_ptr_bool)
           (jsonT := JSON_ptr_bool) (bytes "true") (Some true)
           (Null (goT := GoType_ptr_bool))).
  right. split; reflexivity.
Defined.

End NullableSpec.
